(** * copilot-testing: the server entry point [packages/server/src/main.ts]

    The repository's executable code is the NestJS entry point

<<
    import 'reflect-metadata';
    import { NestFactory } from '@nestjs/core';

    import { AppModule } from './app.module';

    async function bootstrap() {
      const app = await NestFactory.create(AppModule);
      await app.listen(3000);
      // eslint-disable-next-line no-console
      console.log('Server running on http://localhost:3000');
    }

    bootstrap();
>>

    [bootstrap] is embedded as a program in a small monad of calls to the
    outside world ([Prog]): an [await]ed call suspends the function until the
    promise settles and rethrows a rejection, as in JavaScript; a framework
    call may also end the process before its promise settles.  The NestJS
    framework and the Node process are not part of the repository; they are a
    parameter of the development (a [Host]), and every statement about
    [bootstrap] is proved for all hosts, or for all hosts that honour a
    stated contract. *)

From Stdlib Require Import String ZArith List Bool Lia DecimalString.
From ExtLib Require Import Structures.Monad.
Import ListNotations.
Import MonadNotation.

Local Open Scope string_scope.
Local Open Scope list_scope.
Local Open Scope Z_scope.
Local Open Scope monad_scope.

(** ** Values *)

(** The reason a promise is rejected with (an [Error] object's message). *)
Definition Error : Type := string.

(** How an awaited call ends: its promise is fulfilled, its promise is
    rejected, or the process ends during the call and the promise never
    settles.  The last is how NestJS answers an error inside
    [NestFactory.create] when, as in main.ts, the call passes no option that
    turns abort-on-error off. *)
Inductive Outcome (A : Type) : Type :=
| Fulfilled (a : A)
| Rejected (e : Error)
| Terminated (code : Z).
Arguments Fulfilled {A} a.
Arguments Rejected {A} e.
Arguments Terminated {A} code.

(** An imported binding: [import { export_name } from 'module_path']. *)
Record ModuleRef : Type := {
  export_name : string;
  module_path : string
}.

(** [import { AppModule } from './app.module'] *)
Definition AppModule : ModuleRef :=
  {| export_name := "AppModule"; module_path := "./app.module" |}.

(** The application object [NestFactory.create] resolves to; the host names
    the applications it has built by number. *)
Definition App : Type := nat.

(** ** Calls to the outside world *)

(** Calls that return a promise. *)
Inductive AsyncOp : Type -> Type :=
| NestFactory_create (m : ModuleRef) : AsyncOp App
| app_listen (app : App) (port : Z) : AsyncOp unit
| app_close (app : App) : AsyncOp unit.

(** Synchronous calls and reads of the process. *)
Inductive SyncOp : Type -> Type :=
| console_log (msg : string) : SyncOp unit
| process_argv : SyncOp (list string)
| process_env (name : string) : SyncOp (option string).

(** Named strings: the first binding of a key is the one in force. *)
Fixpoint lookup (key : string) (l : list (string * string)) : option string :=
  match l with
  | [] => None
  | (k, v) :: rest => if String.eqb k key then Some v else lookup key rest
  end.

(** State a program may own itself: named cells (module-level variables,
    records it persists), each holding a string. *)
Definition Own : Type := list (string * string).

Definition own_lookup (key : string) (own : Own) : option string :=
  lookup key own.

Definition own_update (key value : string) (own : Own) : Own :=
  (key, value) :: own.

(** ** Programs *)

(** The body of an async function, as the tree of its calls.  [Await]'s
    continuation receives the settled promise; [Exit] is [process.exit]. *)
Inductive Prog (A : Type) : Type :=
| Ret (a : A)
| Throw (e : Error)
| Exit (code : Z)
| Await {X : Type} (op : AsyncOp X) (k : Outcome X -> Prog A)
| Do {X : Type} (op : SyncOp X) (k : X -> Prog A)
| OwnGet (key : string) (k : option string -> Prog A)
| OwnSet (key value : string) (k : Prog A).
Arguments Ret {A} a.
Arguments Throw {A} e.
Arguments Exit {A} code.
Arguments Await {A X} op k.
Arguments Do {A X} op k.
Arguments OwnGet {A} key k.
Arguments OwnSet {A} key value k.

Fixpoint prog_bind {A B : Type} (m : Prog A) (f : A -> Prog B) : Prog B :=
  match m with
  | Ret a => f a
  | Throw e => Throw e
  | Exit code => Exit code
  | Await op k => Await op (fun o => prog_bind (k o) f)
  | Do op k => Do op (fun x => prog_bind (k x) f)
  | OwnGet key k => OwnGet key (fun v => prog_bind (k v) f)
  | OwnSet key value k => OwnSet key value (prog_bind k f)
  end.

#[global] Instance Monad_Prog : Monad Prog :=
  {| ret := @Ret; bind := @prog_bind |}.

(** [await e]: wait for the promise to settle; a rejection is thrown, and
    nothing after the [await] runs when the process ends first. *)
Definition await {X : Type} (op : AsyncOp X) : Prog X :=
  Await op (fun o =>
    match o with
    | Fulfilled x => Ret x
    | Rejected e => Throw e
    | Terminated code => Exit code
    end).

(** A synchronous call. *)
Definition call {X : Type} (op : SyncOp X) : Prog X := Do op Ret.

(** ** The entry point *)

Definition bootstrap : Prog unit :=
  app <- await (NestFactory_create AppModule) ;;
  await (app_listen app 3000) ;;
  call (console_log "Server running on http://localhost:3000").

(** ** Running a program against a host *)

(** How an async function completes: it returns (its promise is fulfilled),
    it throws (its promise is rejected), or the process exits under it. *)
Inductive Completion (A : Type) : Type :=
| Returned (a : A)
| Threw (e : Error)
| ProcessExit (code : Z).
Arguments Returned {A} a.
Arguments Threw {A} e.
Arguments ProcessExit {A} code.

(** What the outside world sees of a run. *)
Inductive Event : Type :=
| ECreate (m : ModuleRef) (o : Outcome App)
| EListen (app : App) (port : Z) (o : Outcome unit)
| EClose (app : App) (o : Outcome unit)
| ELog (msg : string)
| EArgv (v : list string)
| EEnv (name : string) (v : option string)
| EOwnGet (key : string) (v : option string)
| EOwnSet (key value : string).

Definition async_event {X : Type} (op : AsyncOp X) : Outcome X -> Event :=
  match op in AsyncOp T return Outcome T -> Event with
  | NestFactory_create m => ECreate m
  | app_listen app port => EListen app port
  | app_close app => EClose app
  end.

Definition sync_event {X : Type} (op : SyncOp X) : X -> Event :=
  match op in SyncOp T return T -> Event with
  | console_log msg => fun _ => ELog msg
  | process_argv => EArgv
  | process_env name => EEnv name
  end.

(** The framework and the process: how each call is answered in a state of
    the world, and the ports on which the process answers requests. *)
Record Host (S : Type) : Type := {
  settle : forall X : Type, AsyncOp X -> S -> Outcome X * S;
  perform : forall X : Type, SyncOp X -> S -> X * S;
  serving : S -> list Z
}.
Arguments settle {S} h {X} op s.
Arguments perform {S} h {X} op s.
Arguments serving {S} h s.

(** A trace lists the events of a run, each with the state of the world
    right after it. *)
Definition Trace (S : Type) : Type := list (Event * S).

Definition events {S : Type} (tr : Trace S) : list Event := map fst tr.

Fixpoint run {S A : Type} (h : Host S) (p : Prog A) (s : S) (own : Own)
  : Completion A * (S * Own) * Trace S :=
  match p with
  | Ret a => (Returned a, (s, own), [])
  | Throw e => (Threw e, (s, own), [])
  | Exit code => (ProcessExit code, (s, own), [])
  | Await op k =>
      let '(o, s1) := settle h op s in
      let '(c, st, tr) := run h (k o) s1 own in
      (c, st, (async_event op o, s1) :: tr)
  | Do op k =>
      let '(x, s1) := perform h op s in
      let '(c, st, tr) := run h (k x) s1 own in
      (c, st, (sync_event op x, s1) :: tr)
  | OwnGet key k =>
      let v := own_lookup key own in
      let '(c, st, tr) := run h (k v) s own in
      (c, st, (EOwnGet key v, s) :: tr)
  | OwnSet key value k =>
      let '(c, st, tr) := run h k s (own_update key value own) in
      (c, st, (EOwnSet key value, s) :: tr)
  end.

(** The module's last statement, [bootstrap();], calls the function and drops
    its promise: a rejection has no handler. *)
Inductive ProcessStatus : Type :=
| Alive
| UnhandledRejection (e : Error)
| Exited (code : Z).

Definition status_of {A : Type} (c : Completion A) : ProcessStatus :=
  match c with
  | Returned _ => Alive
  | Threw e => UnhandledRejection e
  | ProcessExit code => Exited code
  end.

Definition main_ts {S : Type} (h : Host S) (s : S) (own : Own)
  : ProcessStatus * (S * Own) * Trace S :=
  let '(c, st, tr) := run h bootstrap s own in
  (status_of c, st, tr).

(** ** Observations on traces *)

(** A call as the program issues it: the operation and its literal
    arguments, without the answer and without the application handle. *)
Inductive Step : Type :=
| StCreate (m : ModuleRef)
| StListen (port : Z)
| StClose
| StLog (msg : string)
| StArgv
| StEnv (name : string)
| StOwnGet (key : string)
| StOwnSet (key value : string).

Definition step_of (ev : Event) : Step :=
  match ev with
  | ECreate m _ => StCreate m
  | EListen _ port _ => StListen port
  | EClose _ _ => StClose
  | ELog msg => StLog msg
  | EArgv _ => StArgv
  | EEnv name _ => StEnv name
  | EOwnGet key _ => StOwnGet key
  | EOwnSet key value => StOwnSet key value
  end.

Definition steps {S : Type} (tr : Trace S) : list Step :=
  map step_of (events tr).

(** The three calls of [bootstrap]'s body, in source order. *)
Definition bootstrap_steps : list Step :=
  [ StCreate AppModule;
    StListen 3000;
    StLog "Server running on http://localhost:3000" ].

(** The error of a call whose promise was rejected. *)
Definition rejection (ev : Event) : option Error :=
  match ev with
  | ECreate _ (Rejected e) => Some e
  | EListen _ _ (Rejected e) => Some e
  | EClose _ (Rejected e) => Some e
  | _ => None
  end.

(** The exit code of a call during which the process ended. *)
Definition termination (ev : Event) : option Z :=
  match ev with
  | ECreate _ (Terminated code) => Some code
  | EListen _ _ (Terminated code) => Some code
  | EClose _ (Terminated code) => Some code
  | _ => None
  end.

(** How a call that failed ends the function awaiting it. *)
Definition failure (ev : Event) : option (Completion unit) :=
  match rejection ev, termination ev with
  | Some e, _ => Some (Threw e)
  | None, Some code => Some (ProcessExit code)
  | None, None => None
  end.



(** Events that read the process's inputs. *)
Definition reads_input (ev : Event) : bool :=
  match ev with
  | EArgv _ | EEnv _ _ => true
  | _ => false
  end.

(** Events on the program's own state. *)
Definition touches_own (ev : Event) : bool :=
  match ev with
  | EOwnGet _ _ | EOwnSet _ _ => true
  | _ => false
  end.

(** Ports passed to [listen] in a run. *)
Fixpoint listen_ports (evs : list Event) : list Z :=
  match evs with
  | [] => []
  | EListen _ port _ :: rest => port :: listen_ports rest
  | _ :: rest => listen_ports rest
  end.

(** Messages passed to [console.log] in a run. *)
Fixpoint logged (evs : list Event) : list string :=
  match evs with
  | [] => []
  | ELog msg :: rest => msg :: logged rest
  | _ :: rest => logged rest
  end.

(** A port in decimal, and the URL the log message shows for it. *)
Definition port_text (port : Z) : string :=
  NilZero.string_of_int (Z.to_int port).

Definition running_message (port : Z) : string :=
  ("Server running on http://localhost:" ++ port_text port)%string.

(** ** The contract of the framework

    What the development assumes of NestJS where a statement is about
    answering requests: building the application opens no port, a fulfilled
    [listen] opens exactly the port it was given, a [listen] that is rejected
    or under which the process ends opens none, and the synchronous calls
    leave the ports alone. *)
Record FrameworkContract {S : Type} (h : Host S) : Prop := {
  create_opens_nothing : forall m s,
    serving h (snd (settle h (NestFactory_create m) s)) = serving h s;
  listen_opens_port : forall app port s s',
    settle h (app_listen app port) s = (Fulfilled tt, s') ->
    serving h s' = port :: serving h s;
  failed_listen_opens_nothing : forall app port e s s',
    settle h (app_listen app port) s = (Rejected e, s') ->
    serving h s' = serving h s;
  terminated_listen_opens_nothing : forall app port code s s',
    settle h (app_listen app port) s = (Terminated code, s') ->
    serving h s' = serving h s;
  sync_opens_nothing : forall (X : Type) (op : SyncOp X) s,
    serving h (snd (perform h op s)) = serving h s
}.

(** ** A reference host

    A small Node process with NestJS, used to run [bootstrap] on concrete
    worlds.  When the application cannot be built ([create_failure]) the
    framework ends the process with exit code 1 and [create] never settles;
    [listen] is rejected with EADDRINUSE when the port is taken.  [stdout]
    holds the lines written through [console.log]; the lines of the
    framework's own logger are left out. *)
Record Node : Type := {
  argv : list string;
  env : list (string * string);
  busy : list Z;
  create_failure : option Error;
  listening : list (App * Z);
  next_app : App;
  stdout : list string
}.

Definition node_serving (n : Node) : list Z := map snd (listening n).

Definition node_settle (X : Type) (op : AsyncOp X) (n : Node)
  : Outcome X * Node :=
  match op in AsyncOp T return Outcome T * Node with
  | NestFactory_create _ =>
      match create_failure n with
      | Some _ => (Terminated 1, n)
      | None =>
          (Fulfilled (next_app n),
           {| argv := argv n; env := env n; busy := busy n;
              create_failure := None; listening := listening n;
              next_app := S (next_app n); stdout := stdout n |})
      end
  | app_listen app port =>
      if existsb (Z.eqb port) (busy n ++ node_serving n)
      then
        (Rejected
           ("listen EADDRINUSE: address already in use :::"
              ++ port_text port)%string, n)
      else
        (Fulfilled tt,
         {| argv := argv n; env := env n; busy := busy n;
            create_failure := create_failure n;
            listening := (app, port) :: listening n;
            next_app := next_app n; stdout := stdout n |})
  | app_close app =>
      (Fulfilled tt,
       {| argv := argv n; env := env n; busy := busy n;
          create_failure := create_failure n;
          listening :=
            filter (fun entry => negb (Nat.eqb (fst entry) app)) (listening n);
          next_app := next_app n; stdout := stdout n |})
  end.

Definition node_perform (X : Type) (op : SyncOp X) (n : Node) : X * Node :=
  match op in SyncOp T return T * Node with
  | console_log msg =>
      (tt,
       {| argv := argv n; env := env n; busy := busy n;
          create_failure := create_failure n; listening := listening n;
          next_app := next_app n; stdout := stdout n ++ [msg] |})
  | process_argv => (argv n, n)
  | process_env name => (lookup name (env n), n)
  end.

Definition node : Host Node :=
  {| settle := node_settle; perform := node_perform; serving := node_serving |}.

(** A freshly started process: nothing listening, nothing printed. *)
Definition fresh (args : list string) (vars : list (string * string))
  (taken : list Z) (failure : option Error) : Node :=
  {| argv := args; env := vars; busy := taken; create_failure := failure;
     listening := []; next_app := 0%nat; stdout := [] |}.

(** ** The body of [bootstrap], line by line *)

(** The call expressions that occur in the body. *)
Inductive CallExpr : Type :=
| CNestFactoryCreate (arg : ModuleRef)
| CListen (receiver : string) (port : Z)
| CConsoleLog (msg : string).

(** The forms of line that occur in the body:
    [const x = await c;], [await c;], [// text] and [c;]. *)
Inductive Line : Type :=
| LConstAwait (x : string) (c : CallExpr)
| LAwait (c : CallExpr)
| LComment (text : string)
| LCall (c : CallExpr).

Definition bootstrap_lines : list Line :=
  [ LConstAwait "app" (CNestFactoryCreate AppModule);
    LAwait (CListen "app" 3000);
    LComment "eslint-disable-next-line no-console";
    LCall (CConsoleLog "Server running on http://localhost:3000") ].

Definition is_comment (l : Line) : bool :=
  match l with
  | LComment _ => true
  | _ => false
  end.


(** The value of a call expression; [console.log] is not a promise, and a
    receiver that is not bound is a ReferenceError. *)
Definition lookup_app (x : string) (scope : list (string * App)) : Prog App :=
  match find (fun b => String.eqb (fst b) x) scope with
  | Some b => Ret (snd b)
  | None => Throw (x ++ " is not defined")%string
  end.

Definition eval_call (c : CallExpr) (scope : list (string * App))
  : Prog (option App) :=
  match c with
  | CNestFactoryCreate m =>
      app <- await (NestFactory_create m) ;; ret (Some app)
  | CListen x port =>
      app <- lookup_app x scope ;; await (app_listen app port) ;; ret None
  | CConsoleLog msg =>
      call (console_log msg) ;; ret None
  end.

Fixpoint exec_lines (ls : list Line) (scope : list (string * App))
  : Prog unit :=
  match ls with
  | [] => Ret tt
  | LComment _ :: rest => exec_lines rest scope
  | LConstAwait x c :: rest =>
      v <- eval_call c scope ;;
      match v with
      | Some app => exec_lines rest ((x, app) :: scope)
      | None => exec_lines rest scope
      end
  | LAwait c :: rest => eval_call c scope ;; exec_lines rest scope
  | LCall c :: rest => eval_call c scope ;; exec_lines rest scope
  end.

(** ** Results of a run *)

Definition completion {S A : Type} (r : Completion A * (S * Own) * Trace S)
  : Completion A := fst (fst r).

Definition final_world {S A : Type} (r : Completion A * (S * Own) * Trace S)
  : S := fst (snd (fst r)).

Definition final_own {S A : Type} (r : Completion A * (S * Own) * Trace S)
  : Own := snd (snd (fst r)).

Definition trace {S A : Type} (r : Completion A * (S * Own) * Trace S)
  : Trace S := snd r.

Definition status {S : Type} (r : ProcessStatus * (S * Own) * Trace S)
  : ProcessStatus := fst (fst r).

(** The ways a run of [bootstrap] can go, read off the host's answers:
    [create] fails (it is rejected, or the process ends under it); [create]
    is fulfilled and [listen] fails; both are fulfilled and the message is
    logged. *)
Inductive BootRun {S : Type} (h : Host S) (s : S) (own : Own)
  : Completion unit * (S * Own) * Trace S -> Prop :=
| CreateRejected (e : Error) (s1 : S) :
    settle h (NestFactory_create AppModule) s = (Rejected e, s1) ->
    BootRun h s own
      (Threw e, (s1, own), [(ECreate AppModule (Rejected e), s1)])
| CreateTerminated (code : Z) (s1 : S) :
    settle h (NestFactory_create AppModule) s = (Terminated code, s1) ->
    BootRun h s own
      (ProcessExit code, (s1, own),
       [(ECreate AppModule (Terminated code), s1)])
| ListenRejected (app : App) (s1 : S) (e : Error) (s2 : S) :
    settle h (NestFactory_create AppModule) s = (Fulfilled app, s1) ->
    settle h (app_listen app 3000) s1 = (Rejected e, s2) ->
    BootRun h s own
      (Threw e, (s2, own),
       [(ECreate AppModule (Fulfilled app), s1);
        (EListen app 3000 (Rejected e), s2)])
| ListenTerminated (app : App) (s1 : S) (code : Z) (s2 : S) :
    settle h (NestFactory_create AppModule) s = (Fulfilled app, s1) ->
    settle h (app_listen app 3000) s1 = (Terminated code, s2) ->
    BootRun h s own
      (ProcessExit code, (s2, own),
       [(ECreate AppModule (Fulfilled app), s1);
        (EListen app 3000 (Terminated code), s2)])
| Started (app : App) (s1 s2 s3 : S) :
    settle h (NestFactory_create AppModule) s = (Fulfilled app, s1) ->
    settle h (app_listen app 3000) s1 = (Fulfilled tt, s2) ->
    perform h (console_log "Server running on http://localhost:3000") s2
      = (tt, s3) ->
    BootRun h s own
      (Returned tt, (s3, own),
       [(ECreate AppModule (Fulfilled app), s1);
        (EListen app 3000 (Fulfilled tt), s2);
        (ELog "Server running on http://localhost:3000", s3)]).

(** ** The module main.ts, item by item *)







(** * Properties *)

(** Running [m] and then [f]: [f] runs in the world [m] left, and only
    when [m] returned. *)
Lemma run_bind {S A B : Type} (h : Host S) (m : Prog A) (f : A -> Prog B) :
  forall (s : S) (own : Own),
    run h (x <- m ;; f x) s own =
    match completion (run h m s own) with
    | Returned a =>
        let r := run h (f a) (final_world (run h m s own))
                   (final_own (run h m s own)) in
        (completion r, (final_world r, final_own r),
         trace (run h m s own) ++ trace r)
    | Threw e =>
        (Threw e, snd (fst (run h m s own)), trace (run h m s own))
    | ProcessExit code =>
        (ProcessExit code, snd (fst (run h m s own)), trace (run h m s own))
    end.
Proof.
  induction m as [a | e | code | X op k IH | X op k IH | key k IH
                  | key value k IH]; intros s own; cbn.
  - now destruct (run h (f a) s own) as [[c [w o]] tr].
  - reflexivity.
  - reflexivity.
  - destruct (settle h op s) as [o s1]. cbn in IH. rewrite IH.
    destruct (run h (k o) s1 own) as [[[a | e | code] [w o']] tr];
      reflexivity.
  - destruct (perform h op s) as [x s1]. cbn in IH. rewrite IH.
    destruct (run h (k x) s1 own) as [[[a | e | code] [w o']] tr];
      reflexivity.
  - cbn in IH. rewrite IH.
    destruct (run h (k (own_lookup key own)) s own)
      as [[[a | e | code] [w o']] tr]; reflexivity.
  - cbn in IH. rewrite IH.
    destruct (run h k s (own_update key value own))
      as [[[a | e | code] [w o']] tr]; reflexivity.
Qed.

(** An awaited call is one event; its rejection is thrown, and the process
    ending under it ends the run. *)
Lemma run_await {S X : Type} (h : Host S) (op : AsyncOp X) (s : S)
  (own : Own) :
  run h (await op) s own =
  match settle h op s with
  | (Fulfilled x, s1) =>
      (Returned x, (s1, own), [(async_event op (Fulfilled x), s1)])
  | (Rejected e, s1) =>
      (Threw e, (s1, own), [(async_event op (Rejected e), s1)])
  | (Terminated code, s1) =>
      (ProcessExit code, (s1, own), [(async_event op (Terminated code), s1)])
  end.
Proof.
  cbn. now destruct (settle h op s) as [[x | e | code] s1].
Qed.

(** Every run of [bootstrap] is one of those of [BootRun]. *)
Lemma bootstrap_run {S : Type} (h : Host S) (s : S) (own : Own) :
  BootRun h s own (run h bootstrap s own).
Proof.
  unfold bootstrap. cbn.
  destruct (settle h (NestFactory_create AppModule) s)
    as [[app | e | code] s1] eqn:Hc; cbn.
  - destruct (settle h (app_listen app 3000) s1)
      as [[[] | e | code] s2] eqn:Hl; cbn.
    + destruct (perform h (console_log
        "Server running on http://localhost:3000") s2) as [[] s3] eqn:Hp.
      now apply Started with (s1 := s1) (s2 := s2).
    + now apply ListenRejected with (s1 := s1).
    + now apply ListenTerminated with (s1 := s1).
  - now apply CreateRejected.
  - now apply CreateTerminated.
Qed.

(** Case analysis on a run of [bootstrap]. *)
Ltac boot_cases h s own :=
  let V := fresh "V" in
  pose proof (bootstrap_run h s own) as V;
  destruct V as
    [ ?e ?s1 ?Hcreate
    | ?code ?s1 ?Hcreate
    | ?app ?s1 ?e ?s2 ?Hcreate ?Hlisten
    | ?app ?s1 ?code ?s2 ?Hcreate ?Hlisten
    | ?app ?s1 ?s2 ?s3 ?Hcreate ?Hlisten ?Hlog ].

(** Membership in a trace of at most three entries, case by case. *)
Ltac in_trace H :=
  repeat match type of H with
         | _ \/ _ => destruct H as [H | H]
         | False => destruct H
         | In _ _ => cbn in H
         end.

(** The line-by-line reading of the body runs as [bootstrap] does. *)
Lemma exec_lines_bootstrap {S : Type} (h : Host S) (s : S) (own : Own) :
  run h (exec_lines bootstrap_lines []) s own = run h bootstrap s own.
Proof.
  unfold bootstrap. cbn.
  destruct (settle h (NestFactory_create AppModule) s)
    as [[app | e | code] s1]; cbn; try reflexivity.
  destruct (settle h (app_listen app 3000) s1) as [[u | e | code] s2];
    cbn; try reflexivity.
  destruct (perform h (console_log
    "Server running on http://localhost:3000") s2) as [[] s3].
  reflexivity.
Qed.

(** The reference host honours the framework's contract. *)
Lemma node_contract : FrameworkContract node.
Proof.
  split.
  - intros m n. cbn. destruct (create_failure n); reflexivity.
  - intros app port n n'. cbn.
    destruct (existsb _ _); intros H; inversion H. reflexivity.
  - intros app port e n n'. cbn.
    destruct (existsb _ _); intros H; inversion H. reflexivity.
  - intros app port code n n'. cbn.
    destruct (existsb _ _); intros H; inversion H.
  - intros X op n. destruct op; reflexivity.
Qed.




(** [C1] Running [bootstrap] binds TCP port 3000.  Every run begins with
    [NestFactory.create(AppModule)]; when the framework builds the
    application, the next call is [listen(3000)] on it, in the world
    [create] left; every [listen] call of a run is passed exactly 3000.
    With a framework that honours its contract, in a process that answers
    nothing at the start, the service answers requests only once the
    framework is fully started: when [create] and [listen(3000)] are both
    fulfilled the run returns and ends serving exactly port 3000, and in any
    world of the run where a port is served, that port is 3000 and [create]
    and [listen(3000)] have both been fulfilled before. *)
Theorem bootstrap_binds_3000_then_answers :
  forall (S : Type) (h : Host S) (s : S) (own : Own),
    FrameworkContract h ->
    serving h s = [] ->
    let r := run h bootstrap s own in
    (exists rest,
       trace r
         = (ECreate AppModule (fst (settle h (NestFactory_create AppModule) s)),
            snd (settle h (NestFactory_create AppModule) s)) :: rest) /\
    (forall app s1,
       settle h (NestFactory_create AppModule) s = (Fulfilled app, s1) ->
       exists rest,
         trace r
           = (ECreate AppModule (Fulfilled app), s1)
             :: (EListen app 3000 (fst (settle h (app_listen app 3000) s1)),
                 snd (settle h (app_listen app 3000) s1))
             :: rest) /\
    (forall app s1 s2,
       settle h (NestFactory_create AppModule) s = (Fulfilled app, s1) ->
       settle h (app_listen app 3000) s1 = (Fulfilled tt, s2) ->
       completion r = Returned tt /\ serving h (final_world r) = [3000]) /\
    (forall app port o,
       In (EListen app port o) (events (trace r)) -> port = 3000) /\
    (forall app,
       In (ECreate AppModule (Fulfilled app)) (events (trace r)) ->
       exists o, In (EListen app 3000 o) (events (trace r))) /\
    (forall ev w,
       In (ev, w) (trace r) -> serving h w <> [] ->
       serving h w = [3000] /\
       exists app,
         firstn 2 (events (trace r))
           = [ECreate AppModule (Fulfilled app);
              EListen app 3000 (Fulfilled tt)] /\
         ev <> ECreate AppModule (Fulfilled app)) /\
    (completion r = Returned tt -> serving h (final_world r) = [3000]).
Proof.
  intros S h s own Hcontract Hquiet r. subst r.
  pose proof (create_opens_nothing h Hcontract AppModule s) as Hs1.
  boot_cases h s own; cbn; rewrite Hcreate in *; cbn in Hs1;
    rewrite Hquiet in Hs1;
    (split; [ eexists; reflexivity | ]).
  - (* create rejected *)
    refine (conj _ (conj _ (conj _ (conj _ (conj _ _))))); try discriminate.
    + intros a port o H. in_trace H; discriminate H.
    + intros a H. in_trace H; discriminate H.
    + intros ev w H Hw. in_trace H; inversion H; subst. contradiction.
  - (* the process ended under create *)
    refine (conj _ (conj _ (conj _ (conj _ (conj _ _))))); try discriminate.
    + intros a port o H. in_trace H; discriminate H.
    + intros a H. in_trace H; discriminate H.
    + intros ev w H Hw. in_trace H; inversion H; subst. contradiction.
  - (* listen rejected *)
    pose proof (failed_listen_opens_nothing h Hcontract _ _ _ _ _ Hlisten)
      as Hs2.
    rewrite Hs1 in Hs2.
    refine (conj _ (conj _ (conj _ (conj _ (conj _ _))))).
    + intros a s1' H. inversion H; subst. rewrite Hlisten. cbn.
      eexists; reflexivity.
    + intros a s1' s2' H H'. inversion H; subst. rewrite Hlisten in H'.
      discriminate H'.
    + intros a port o H. in_trace H; inversion H; reflexivity.
    + intros a H. in_trace H; inversion H; subst.
      exists (Rejected e). right. now left.
    + intros ev w H Hw. in_trace H; inversion H; subst; contradiction.
    + discriminate.
  - (* the process ended under listen *)
    pose proof
      (terminated_listen_opens_nothing h Hcontract _ _ _ _ _ Hlisten) as Hs2.
    rewrite Hs1 in Hs2.
    refine (conj _ (conj _ (conj _ (conj _ (conj _ _))))).
    + intros a s1' H. inversion H; subst. rewrite Hlisten. cbn.
      eexists; reflexivity.
    + intros a s1' s2' H H'. inversion H; subst. rewrite Hlisten in H'.
      discriminate H'.
    + intros a port o H. in_trace H; inversion H; reflexivity.
    + intros a H. in_trace H; inversion H; subst.
      exists (Terminated code). right. now left.
    + intros ev w H Hw. in_trace H; inversion H; subst; contradiction.
    + discriminate.
  - (* started *)
    pose proof (listen_opens_port h Hcontract _ _ _ _ Hlisten) as Hs2.
    rewrite Hs1 in Hs2.
    pose proof (sync_opens_nothing h Hcontract _
      (console_log "Server running on http://localhost:3000") s2) as Hs3.
    rewrite Hlog, Hs2 in Hs3. cbn in Hs3.
    refine (conj _ (conj _ (conj _ (conj _ (conj _ _))))).
    + intros a s1' H. inversion H; subst. rewrite Hlisten. cbn.
      eexists; reflexivity.
    + intros a s1' s2' H H'. now split.
    + intros a port o H. in_trace H; inversion H; reflexivity.
    + intros a H. in_trace H; inversion H; subst.
      exists (Fulfilled tt). right. now left.
    + intros ev w H Hw. in_trace H; inversion H; subst.
      * contradiction.
      * split; [ assumption | ].
        exists app. split; [ reflexivity | discriminate ].
      * split; [ assumption | ].
        exists app. split; [ reflexivity | discriminate ].
    + intros _. assumption.
Qed.

(** [C1], on the reference host: in a process started with port 3000 free
    the run begins with [create], goes on with [listen(3000)], returns, and
    ends serving port 3000. *)
Lemma bootstrap_binds_3000_then_answers_witness :
  let w := fresh ["node"; "dist/main.js"] [] [] None in
  let r := run node bootstrap w [] in
  (exists rest,
     trace r
       = (ECreate AppModule (Fulfilled 0%nat),
          snd (settle node (NestFactory_create AppModule) w))
         :: (EListen 0%nat 3000
               (fst (settle node (app_listen 0%nat 3000)
                       (snd (settle node (NestFactory_create AppModule) w)))),
             snd (settle node (app_listen 0%nat 3000)
                    (snd (settle node (NestFactory_create AppModule) w))))
         :: rest) /\
  completion r = Returned tt /\
  serving node (final_world r) = [3000].
Proof.
  intros w r.
  pose proof (bootstrap_binds_3000_then_answers Node node w []
                node_contract eq_refl) as H.
  cbv zeta in H. fold r in H.
  destruct H as (_ & Hlisten & Hserved & _).
  split.
  - apply (Hlisten 0%nat (snd (settle node (NestFactory_create AppModule) w))).
    reflexivity.
  - apply (Hserved 0%nat
             (snd (settle node (NestFactory_create AppModule) w))
             (snd (settle node (app_listen 0%nat 3000)
                     (snd (settle node (NestFactory_create AppModule) w))))).
    + reflexivity.
    + reflexivity.
Defined.

(** [C3] As stated (every failure propagates out of [bootstrap] as an
    unhandled failure) the claim fails for a failure inside
    [NestFactory.create]: when the application cannot be built, the
    framework ends the process with exit code 1; [bootstrap] throws nothing
    and there is no unhandled rejection. *)
Lemma create_failure_ends_the_process :
  let w := fresh ["node"; "dist/main.js"] [] []
             (Some "Nest can't resolve dependencies of the AppController") in
  events (trace (run node bootstrap w []))
    = [ECreate AppModule (Terminated 1)] /\
  completion (run node bootstrap w []) = ProcessExit 1 /\
  status (main_ts node w []) = Exited 1 /\
  (forall e, completion (run node bootstrap w []) <> Threw e) /\
  (forall e, status (main_ts node w []) <> UnhandledRejection e).
Proof.
  cbv zeta. repeat split; intros e H; discriminate H.
Qed.

(** [C3], amended.  [bootstrap] handles no error.  Whenever a call of the
    startup sequence fails, the run ends there with that failure: a call
    whose promise is rejected with [e] (as [listen] is when the port is in
    use) makes [bootstrap] throw that same [e], which the module's unawaited
    call leaves an unhandled rejection; a call under which the framework
    ends the process (as [create] does by default) leaves the process exited
    with the framework's code.  Either way the failed call is the last thing
    done (no recovery), no other call failed, no call was made twice (no
    retry), and nothing was logged (no report, and not the startup
    message).  And [bootstrap] fails in no other way: a run that throws [e]
    has a call rejected with [e], a run in which the process exits with a
    code has a call under which the framework ended it with that code. *)
Theorem startup_failure_propagates :
  forall (S : Type) (h : Host S) (s : S) (own : Own),
    (forall (ev : Event) (c : Completion unit),
       In ev (events (trace (run h bootstrap s own))) ->
       failure ev = Some c ->
       completion (run h bootstrap s own) = c /\
       status (main_ts h s own) = status_of c /\
       (forall e,
          rejection ev = Some e ->
          c = Threw e /\ status (main_ts h s own) = UnhandledRejection e) /\
       (forall code,
          termination ev = Some code ->
          c = ProcessExit code /\ status (main_ts h s own) = Exited code) /\
       last (events (trace (run h bootstrap s own))) ev = ev /\
       (forall other, In other (events (trace (run h bootstrap s own))) ->
          other <> ev -> failure other = None) /\
       NoDup (steps (trace (run h bootstrap s own))) /\
       logged (events (trace (run h bootstrap s own))) = []) /\
    (forall e,
       completion (run h bootstrap s own) = Threw e ->
       exists ev,
         In ev (events (trace (run h bootstrap s own))) /\
         rejection ev = Some e) /\
    (forall code,
       completion (run h bootstrap s own) = ProcessExit code ->
       exists ev,
         In ev (events (trace (run h bootstrap s own))) /\
         termination ev = Some code).
Proof.
  intros S h s own. unfold main_ts.
  boot_cases h s own; cbn;
    (split;
     [ intros ev c H Hf; in_trace H; subst ev;
       cbn in Hf; inversion Hf; subst c;
       (split; [ reflexivity | ]); (split; [ reflexivity | ]);
       (split; [ intros e' He; cbn in He; inversion He; now split | ]);
       (split; [ intros code' Hc; cbn in Hc; inversion Hc; now split | ]);
       (split; [ reflexivity | ]);
       (split;
        [ intros other H Hne; in_trace H; subst other;
          first [ reflexivity | now contradiction Hne ]
        | ]);
       (split; [ | reflexivity ]);
       repeat constructor; cbn; intuition discriminate
     | split; intros x Hx; inversion Hx; subst;
       solve
         [ eexists; split; [ cbn; left; reflexivity | reflexivity ]
         | eexists; split; [ cbn; right; left; reflexivity | reflexivity ] ]
     ]).
Qed.

(** [C3], on the reference host: port 3000 is held by another process. *)
Lemma startup_failure_propagates_witness :
  let w := fresh ["node"; "dist/main.js"] [] [3000] None in
  let e := "listen EADDRINUSE: address already in use :::3000" in
  let ev := EListen 0%nat 3000 (Rejected e) in
  completion (run node bootstrap w []) = Threw e /\
  status (main_ts node w []) = UnhandledRejection e /\
  last (events (trace (run node bootstrap w []))) ev = ev /\
  logged (events (trace (run node bootstrap w []))) = [].
Proof.
  intros w e ev.
  assert (Hin : In ev (events (trace (run node bootstrap w [])))).
  { vm_compute. right. left. reflexivity. }
  assert (Hfail : failure ev = Some (Threw e)) by reflexivity.
  destruct (startup_failure_propagates Node node w []) as (Hfailed & _ & _).
  destruct (Hfailed ev (Threw e) Hin Hfail)
    as (Hc & _ & Hrej & _ & Hlast & _ & _ & Hlog).
  destruct (Hrej e eq_refl) as [_ Hstatus].
  exact (conj Hc (conj Hstatus (conj Hlast Hlog))).
Defined.

(** Two initial segments of one list: one is an initial segment of the
    other. *)
Lemma prefixes_comparable {A : Type} (l1 l2 l : list A) :
  (exists rest, l1 ++ rest = l) ->
  (exists rest, l2 ++ rest = l) ->
  (exists rest, l1 ++ rest = l2) \/ (exists rest, l2 ++ rest = l1).
Proof.
  revert l2 l.
  induction l1 as [ | a l1 IH ]; intros l2 l [r1 H1] [r2 H2].
  - left. now exists l2.
  - destruct l2 as [ | b l2 ].
    + right. now exists (a :: l1).
    + cbn in H1, H2. subst l. inversion H2; subst b.
      destruct (IH l2 (l1 ++ r1)) as [[rest Hrest] | [rest Hrest]].
      * now exists r1.
      * now exists r2.
      * left. exists rest. cbn. now rewrite Hrest.
      * right. exists rest. cbn. now rewrite Hrest.
Qed.

(** One run of [bootstrap]: it begins with [create]; its calls are an
    initial segment of the three, all three exactly when it returns; it
    stops short only at a call that failed; and it reads no input, repeats
    no call and listens on 3000 only. *)
Lemma straight_line_run {S : Type} (h : Host S) (s : S) (own : Own) :
  let r := run h bootstrap s own in
  (exists rest,
     trace r
       = (ECreate AppModule (fst (settle h (NestFactory_create AppModule) s)),
          snd (settle h (NestFactory_create AppModule) s)) :: rest) /\
  (exists rest, steps (trace r) ++ rest = bootstrap_steps) /\
  (completion r = Returned tt -> steps (trace r) = bootstrap_steps) /\
  (steps (trace r) = bootstrap_steps /\ completion r = Returned tt \/
   exists init ev w,
     trace r = init ++ [(ev, w)] /\ failure ev = Some (completion r)) /\
  ((forall ev, In ev (events (trace r)) -> failure ev = None) ->
   steps (trace r) = bootstrap_steps /\ completion r = Returned tt) /\
  filter reads_input (events (trace r)) = [] /\
  Forall (fun port => port = 3000) (listen_ports (events (trace r))).
Proof.
  intros r. subst r.
  boot_cases h s own; cbn; rewrite Hcreate; cbn;
    (split; [ eexists; reflexivity | ]);
    (split; [ eexists; cbn; reflexivity | ]);
    (split; [ first [ discriminate | reflexivity ] | ]).
  - split; [ right; now exists [], (ECreate AppModule (Rejected e)), s1 | ].
    split; [ | split; repeat constructor ].
    intros H. specialize (H _ (or_introl eq_refl)). discriminate H.
  - split; [ right; now exists [], (ECreate AppModule (Terminated code)), s1 | ].
    split; [ | split; repeat constructor ].
    intros H. specialize (H _ (or_introl eq_refl)). discriminate H.
  - split.
    { right.
      now exists [(ECreate AppModule (Fulfilled app), s1)],
                 (EListen app 3000 (Rejected e)), s2. }
    split; [ | split; repeat constructor ].
    intros H. specialize (H _ (or_intror (or_introl eq_refl))).
    discriminate H.
  - split.
    { right.
      now exists [(ECreate AppModule (Fulfilled app), s1)],
                 (EListen app 3000 (Terminated code)), s2. }
    split; [ | split; repeat constructor ].
    intros H. specialize (H _ (or_intror (or_introl eq_refl))).
    discriminate H.
  - split; [ now left | ].
    split; [ intros _; now split | split; repeat constructor ].
Qed.

(** [C4] [bootstrap] is a straight line with nothing to configure.  Every
    run begins with [NestFactory.create(AppModule)] and goes through the
    same three calls, stopping short only at a call that failed: a run in
    which no call fails makes exactly the three calls and returns.  So for
    any two runs, in any two worlds (whatever their arguments, environment
    and framework), the calls of one are an initial segment of the calls of
    the other, and they are the same three calls when both return or when
    no call fails in either; no call is made twice; neither run reads the
    arguments or the environment; and every port passed to [listen] is
    3000. *)
Theorem bootstrap_is_straight_line :
  forall (S1 S2 : Type) (h1 : Host S1) (h2 : Host S2)
         (s1 : S1) (s2 : S2) (own1 own2 : Own),
    let r1 := run h1 bootstrap s1 own1 in
    let r2 := run h2 bootstrap s2 own2 in
    ((exists rest, steps (trace r1) ++ rest = steps (trace r2)) \/
     (exists rest, steps (trace r2) ++ rest = steps (trace r1))) /\
    (completion r1 = Returned tt -> completion r2 = Returned tt ->
       steps (trace r1) = bootstrap_steps /\
       steps (trace r2) = bootstrap_steps) /\
    NoDup (steps (trace r1)) /\ NoDup (steps (trace r2)) /\
    filter reads_input (events (trace r1)) = [] /\
    filter reads_input (events (trace r2)) = [] /\
    Forall (fun port => port = 3000)
      (listen_ports (events (trace r1)) ++ listen_ports (events (trace r2))) /\
    (exists rest,
       trace r1
         = (ECreate AppModule
              (fst (settle h1 (NestFactory_create AppModule) s1)),
            snd (settle h1 (NestFactory_create AppModule) s1)) :: rest) /\
    (exists rest,
       trace r2
         = (ECreate AppModule
              (fst (settle h2 (NestFactory_create AppModule) s2)),
            snd (settle h2 (NestFactory_create AppModule) s2)) :: rest) /\
    (steps (trace r1) = bootstrap_steps /\ completion r1 = Returned tt \/
     exists init ev w,
       trace r1 = init ++ [(ev, w)] /\ failure ev = Some (completion r1)) /\
    (steps (trace r2) = bootstrap_steps /\ completion r2 = Returned tt \/
     exists init ev w,
       trace r2 = init ++ [(ev, w)] /\ failure ev = Some (completion r2)) /\
    ((forall ev, In ev (events (trace r1)) -> failure ev = None) ->
     (forall ev, In ev (events (trace r2)) -> failure ev = None) ->
     steps (trace r1) = steps (trace r2) /\
     steps (trace r1) = bootstrap_steps /\
     completion r1 = Returned tt /\ completion r2 = Returned tt).
Proof.
  intros S1 S2 h1 h2 s1 s2 own1 own2 r1 r2.
  assert (Hnodup : forall l : list Step,
            (exists rest, l ++ rest = bootstrap_steps) -> NoDup l).
  { intros l [rest Hl].
    assert (Hall : NoDup (l ++ rest)).
    { rewrite Hl. repeat constructor; cbn; intuition discriminate. }
    now apply NoDup_app_remove_r in Hall. }
  destruct (straight_line_run h1 s1 own1)
    as (Hfirst1 & Hprefix1 & Hret1 & Hstop1 & Hok1 & Hin1 & Hport1).
  destruct (straight_line_run h2 s2 own2)
    as (Hfirst2 & Hprefix2 & Hret2 & Hstop2 & Hok2 & Hin2 & Hport2).
  fold r1 in Hfirst1, Hprefix1, Hret1, Hstop1, Hok1, Hin1, Hport1.
  fold r2 in Hfirst2, Hprefix2, Hret2, Hstop2, Hok2, Hin2, Hport2.
  split; [ exact (prefixes_comparable _ _ _ Hprefix1 Hprefix2) | ].
  split; [ intros H1 H2; split; auto | ].
  split; [ now apply Hnodup | ].
  split; [ now apply Hnodup | ].
  split; [ exact Hin1 | ].
  split; [ exact Hin2 | ].
  split; [ apply Forall_app; now split | ].
  split; [ exact Hfirst1 | ].
  split; [ exact Hfirst2 | ].
  split; [ exact Hstop1 | ].
  split; [ exact Hstop2 | ].
  intros Hno1 Hno2.
  destruct (Hok1 Hno1) as [Hs1 Hc1]. destruct (Hok2 Hno2) as [Hs2 Hc2].
  rewrite Hs1, Hs2. now repeat split.
Qed.

(** [C4], on the reference host: a process started with a PORT variable and
    one started with a --port argument make the same three calls. *)
Lemma bootstrap_is_straight_line_witness :
  let w1 := fresh ["node"; "dist/main.js"] [("PORT", "8080")] [] None in
  let w2 := fresh ["node"; "dist/main.js"; "--port"; "9000"] [] [] None in
  steps (trace (run node bootstrap w1 [])) = bootstrap_steps /\
  steps (trace (run node bootstrap w2 [])) = bootstrap_steps.
Proof.
  intros w1 w2.
  pose proof (bootstrap_is_straight_line Node Node node node w1 w2 [] [])
    as H.
  cbv zeta in H. destruct H as (_ & Hsame & _).
  apply Hsame; reflexivity.
Defined.

(** [C7] Once [listen] has succeeded the process is bound to port 3000 and
    stays up: the port of the fulfilled [listen] is 3000, [bootstrap] then
    returns without closing the application or exiting the process, the
    module's status is [Alive], and with a framework that honours its
    contract port 3000 is still served in the final world. *)
Theorem started_process_stays_bound :
  forall (S : Type) (h : Host S) (s : S) (own : Own) (app : App) (port : Z),
    FrameworkContract h ->
    In (EListen app port (Fulfilled tt))
       (events (trace (run h bootstrap s own))) ->
    port = 3000 /\
    In 3000 (serving h (final_world (run h bootstrap s own))) /\
    completion (run h bootstrap s own) = Returned tt /\
    status (main_ts h s own) = Alive /\
    (forall a o,
       ~ In (EClose a o) (events (trace (run h bootstrap s own)))) /\
    last (steps (trace (run h bootstrap s own))) StClose
      = StLog "Server running on http://localhost:3000".
Proof.
  intros S h s own app port Hcontract. unfold main_ts.
  boot_cases h s own; cbn; intros H; in_trace H; try discriminate H.
  inversion H; subst.
  pose proof (listen_opens_port h Hcontract _ _ _ _ Hlisten) as Hs2.
  pose proof (sync_opens_nothing h Hcontract _
    (console_log "Server running on http://localhost:3000") s2) as Hs3.
  rewrite Hlog in Hs3. cbn in Hs3.
  repeat split; trivial.
  - rewrite Hs3, Hs2. now left.
  - intros a o H'. in_trace H'; discriminate H'.
Qed.

(** [C7], on the reference host: a process started with port 3000 free. *)
Lemma started_process_stays_bound_witness :
  let w := fresh ["node"; "dist/main.js"] [] [] None in
  (3000 = 3000) /\
  In 3000 (serving node (final_world (run node bootstrap w []))) /\
  completion (run node bootstrap w []) = Returned tt /\
  status (main_ts node w []) = Alive /\
  (forall a o, ~ In (EClose a o) (events (trace (run node bootstrap w [])))) /\
  last (steps (trace (run node bootstrap w []))) StClose
    = StLog "Server running on http://localhost:3000".
Proof.
  intros w.
  apply (started_process_stays_bound Node node w [] 0%nat 3000).
  - exact node_contract.
  - vm_compute. right. left. reflexivity.
Defined.

(** [C8] [bootstrap] keeps no data of its own: in every run the program's
    own state is at the end what it was at the start, no event of the run
    reads or writes it, and the one value the body holds is the application
    handle, which [listen] receives as [create] returned it. *)
Theorem bootstrap_owns_no_state :
  forall (S : Type) (h : Host S) (s : S) (own : Own),
    let r := run h bootstrap s own in
    final_own r = own /\
    filter touches_own (events (trace r)) = [] /\
    (forall app port o,
       In (EListen app port o) (events (trace r)) ->
       In (ECreate AppModule (Fulfilled app)) (events (trace r))).
Proof.
  intros S h s own r. subst r.
  boot_cases h s own; cbn; repeat split;
    intros a port o H; in_trace H; inversion H; subst; now left.
Qed.

(** [C8], on the reference host: a process that starts with a record of its
    own ends with the same record, and [listen] was passed the handle
    [create] returned. *)
Lemma bootstrap_owns_no_state_witness :
  let w := fresh ["node"; "dist/main.js"] [] [] None in
  let own := [("visits", "7")] in
  final_own (run node bootstrap w own) = own /\
  In (ECreate AppModule (Fulfilled 0%nat))
     (events (trace (run node bootstrap w own))).
Proof.
  intros w own.
  pose proof (bootstrap_owns_no_state Node node w own) as H.
  cbv zeta in H. destruct H as (Hown & _ & Hhandle).
  split; [ exact Hown | ].
  apply (Hhandle 0%nat 3000 (Fulfilled tt)).
  vm_compute. right. left. reflexivity.
Defined.

(** [C9] The port does not depend on command-line arguments or environment
    variables.  For any two runs, in worlds that may differ in their
    arguments and environment (and in everything else), neither run reads
    [process.argv] or [process.env], every port passed to [listen] in either
    run is 3000, and two runs that reach [listen] pass it the same ports. *)
Theorem port_independent_of_process_inputs :
  forall (S1 S2 : Type) (h1 : Host S1) (h2 : Host S2)
         (s1 : S1) (s2 : S2) (own1 own2 : Own),
    let r1 := run h1 bootstrap s1 own1 in
    let r2 := run h2 bootstrap s2 own2 in
    filter reads_input (events (trace r1)) = [] /\
    filter reads_input (events (trace r2)) = [] /\
    (forall port, In port (listen_ports (events (trace r1))) -> port = 3000) /\
    (forall port, In port (listen_ports (events (trace r2))) -> port = 3000) /\
    (listen_ports (events (trace r1)) <> [] ->
     listen_ports (events (trace r2)) <> [] ->
     listen_ports (events (trace r1)) = listen_ports (events (trace r2))).
Proof.
  intros S1 S2 h1 h2 s1 s2 own1 own2 r1 r2. subst r1 r2.
  boot_cases h1 s1 own1; boot_cases h2 s2 own2; cbn;
    repeat split; try tauto; intros port [H | []]; now symmetry.
Qed.

(** [C9], on the reference host: two processes started with different
    arguments and different environments both pass [listen] the port 3000. *)
Lemma port_independent_of_process_inputs_witness :
  let w1 := fresh ["node"; "dist/main.js"] [("PORT", "8080")] [] None in
  let w2 := fresh ["node"; "dist/main.js"; "--port"; "9000"] [] [] None in
  listen_ports (events (trace (run node bootstrap w1 [])))
    = listen_ports (events (trace (run node bootstrap w2 []))) /\
  (forall port,
     In port (listen_ports (events (trace (run node bootstrap w1 [])))) ->
     port = 3000).
Proof.
  intros w1 w2.
  pose proof (port_independent_of_process_inputs Node Node node node
                w1 w2 [] []) as H.
  cbv zeta in H. destruct H as (_ & _ & Hport & _ & Hsame).
  split; [ | exact Hport ].
  apply Hsame; vm_compute; discriminate.
Defined.

(** [C10] The startup message is logged only after [create] and
    [listen(3000)] have both succeeded: a run that logs anything consists of
    the fulfilled [create], the fulfilled [listen(3000)] and the log, in this
    order; the text is ['Server running on http://localhost:3000'], and the
    port it shows is the one every [listen] of the run was passed. *)
Theorem log_only_after_startup :
  forall (S : Type) (h : Host S) (s : S) (own : Own) (msg : string),
    In (ELog msg) (events (trace (run h bootstrap s own))) ->
    (exists app,
       events (trace (run h bootstrap s own))
         = [ECreate AppModule (Fulfilled app);
            EListen app 3000 (Fulfilled tt);
            ELog msg]) /\
    msg = "Server running on http://localhost:3000" /\
    (forall app port o,
       In (EListen app port o) (events (trace (run h bootstrap s own))) ->
       msg = running_message port).
Proof.
  intros S h s own msg.
  boot_cases h s own; cbn; intros H; in_trace H; try discriminate H.
  inversion H; subst.
  repeat split.
  - now exists app.
  - intros app0 port o H'. in_trace H'; inversion H'; subst. reflexivity.
Qed.

(** [C10], on the reference host: a process started with port 3000 free. *)
Lemma log_only_after_startup_witness :
  let w := fresh ["node"; "dist/main.js"] [] [] None in
  let msg := "Server running on http://localhost:3000" in
  (exists app,
     events (trace (run node bootstrap w []))
       = [ECreate AppModule (Fulfilled app);
          EListen app 3000 (Fulfilled tt);
          ELog msg]) /\
  msg = "Server running on http://localhost:3000" /\
  (forall app port o,
     In (EListen app port o) (events (trace (run node bootstrap w []))) ->
     msg = running_message port).
Proof.
  intros w msg.
  apply (log_only_after_startup Node node w [] msg).
  vm_compute. right. right. left. reflexivity.
Defined.

(** [C5] As stated (the body does exactly two things, [create] and
    [listen], and nothing more) the claim fails: run in a fresh process with
    port 3000 free, [bootstrap] makes three calls, the third being
    [console.log], and the message reaches the console. *)
Lemma bootstrap_also_logs :
  let r := run node bootstrap (fresh ["node"; "dist/main.js"] [] [] None) [] in
  steps (trace r)
    = [StCreate AppModule; StListen 3000;
       StLog "Server running on http://localhost:3000"] /\
  steps (trace r) <> [StCreate AppModule; StListen 3000] /\
  stdout (final_world r) = ["Server running on http://localhost:3000"].
Proof.
  cbv zeta. repeat split. vm_compute. discriminate.
Qed.

(** [C5], amended.  The body of [bootstrap] is four lines, one of them a
    lint comment, and does exactly three things: it builds the application
    from the framework, calls [listen] on it with the fixed port 3000, and
    logs a fixed message.  The calls of any run are an initial segment of
    these three, and a run that returns made exactly these three. *)
Theorem bootstrap_body_four_lines_three_calls :
  length bootstrap_lines = 4%nat /\
  filter is_comment bootstrap_lines
    = [LComment "eslint-disable-next-line no-console"] /\
  (forall (S : Type) (h : Host S) (s : S) (own : Own),
     run h (exec_lines bootstrap_lines []) s own = run h bootstrap s own) /\
  (forall (S : Type) (h : Host S) (s : S) (own : Own),
     let r := run h bootstrap s own in
     (exists rest, steps (trace r) ++ rest = bootstrap_steps) /\
     (completion r = Returned tt ->
        exists app,
          events (trace r)
            = [ECreate AppModule (Fulfilled app);
               EListen app 3000 (Fulfilled tt);
               ELog "Server running on http://localhost:3000"])).
Proof.
  split; [ reflexivity | split; [ reflexivity | split ] ].
  - intros S h s own. apply exec_lines_bootstrap.
  - intros S h s own r. subst r.
    boot_cases h s own; cbn; split; try discriminate.
    + now exists [StListen 3000; StLog "Server running on http://localhost:3000"].
    + now exists [StListen 3000; StLog "Server running on http://localhost:3000"].
    + now exists [StLog "Server running on http://localhost:3000"].
    + now exists [StLog "Server running on http://localhost:3000"].
    + now exists [].
    + intros _. now exists app.
Qed.

(** [C5], amended, on the reference host: a process started with port 3000
    free returns after the three calls. *)
Lemma bootstrap_body_four_lines_three_calls_witness :
  let r := run node bootstrap (fresh ["node"; "dist/main.js"] [] [] None) [] in
  exists app,
    events (trace r)
      = [ECreate AppModule (Fulfilled app);
         EListen app 3000 (Fulfilled tt);
         ELog "Server running on http://localhost:3000"].
Proof.
  intros r.
  destruct bootstrap_body_four_lines_three_calls as (_ & _ & _ & H).
  apply (H Node node (fresh ["node"; "dist/main.js"] [] [] None) []).
  reflexivity.
Defined.




(** * Further properties of [bootstrap] *)

(** [X1] With a framework that honours its contract, [bootstrap] changes the
    served ports by at most the one port 3000, whatever was served before:
    a run that returns ends with 3000 added in front of the ports served at
    the start, a run that throws (or exits) ends with exactly the ports
    served at the start, and every world along the run serves one or the
    other. *)
Theorem bootstrap_served_ports :
  forall (S : Type) (h : Host S) (s : S) (own : Own),
    FrameworkContract h ->
    let r := run h bootstrap s own in
    serving h (final_world r)
      = match completion r with
        | Returned _ => 3000 :: serving h s
        | Threw _ | ProcessExit _ => serving h s
        end /\
    (forall ev w,
       In (ev, w) (trace r) ->
       serving h w = serving h s \/ serving h w = 3000 :: serving h s).
Proof.
  intros S h s own Hcontract r. subst r.
  pose proof (create_opens_nothing h Hcontract AppModule s) as Hs1.
  boot_cases h s own; cbn; rewrite Hcreate in Hs1; cbn in Hs1.
  - split; [ exact Hs1 | ].
    intros ev w H. in_trace H; inversion H; subst. now left.
  - split; [ exact Hs1 | ].
    intros ev w H. in_trace H; inversion H; subst. now left.
  - pose proof (failed_listen_opens_nothing h Hcontract _ _ _ _ _ Hlisten)
      as Hs2.
    rewrite Hs1 in Hs2.
    split; [ exact Hs2 | ].
    intros ev w H. in_trace H; inversion H; subst; now left.
  - pose proof
      (terminated_listen_opens_nothing h Hcontract _ _ _ _ _ Hlisten) as Hs2.
    rewrite Hs1 in Hs2.
    split; [ exact Hs2 | ].
    intros ev w H. in_trace H; inversion H; subst; now left.
  - pose proof (listen_opens_port h Hcontract _ _ _ _ Hlisten) as Hs2.
    rewrite Hs1 in Hs2.
    pose proof (sync_opens_nothing h Hcontract _
      (console_log "Server running on http://localhost:3000") s2) as Hs3.
    rewrite Hlog, Hs2 in Hs3. cbn in Hs3.
    split; [ exact Hs3 | ].
    intros ev w H. in_trace H; inversion H; subst;
      [ now left | now right | now right ].
Qed.

(** [X1], on the reference host: a process that already serves port 8080
    through another application ends serving 3000 and 8080. *)
Lemma bootstrap_served_ports_witness :
  let w :=
    {| argv := ["node"; "dist/main.js"]; env := []; busy := [];
       create_failure := None; listening := [(0%nat, 8080)];
       next_app := 1%nat; stdout := [] |} in
  serving node (final_world (run node bootstrap w [])) = [3000; 8080].
Proof.
  intros w.
  pose proof (bootstrap_served_ports Node node w [] node_contract) as H.
  cbv zeta in H. destruct H as [Hfinal _]. exact Hfinal.
Defined.

(** [X2] The startup message is an exact readiness signal.  With a framework
    that honours its contract, in a process that does not serve port 3000 at
    the start, the message is logged in a run if and only if port 3000 is
    served when the run ends; and in the world right after any log of the
    run, port 3000 is served. *)
Theorem startup_message_is_readiness_signal :
  forall (S : Type) (h : Host S) (s : S) (own : Own),
    FrameworkContract h ->
    ~ In 3000 (serving h s) ->
    let r := run h bootstrap s own in
    (In "Server running on http://localhost:3000" (logged (events (trace r)))
     <-> In 3000 (serving h (final_world r))) /\
    (forall msg w, In (ELog msg, w) (trace r) -> In 3000 (serving h w)).
Proof.
  intros S h s own Hcontract Hfree r. subst r.
  pose proof (create_opens_nothing h Hcontract AppModule s) as Hs1.
  boot_cases h s own; cbn; rewrite Hcreate in Hs1; cbn in Hs1.
  - split.
    + split; [ intros [] | ]. rewrite Hs1. exact Hfree.
    + intros msg w H. in_trace H; discriminate H.
  - split.
    + split; [ intros [] | ]. rewrite Hs1. exact Hfree.
    + intros msg w H. in_trace H; discriminate H.
  - pose proof (failed_listen_opens_nothing h Hcontract _ _ _ _ _ Hlisten)
      as Hs2.
    rewrite Hs1 in Hs2.
    split.
    + split; [ intros [] | ]. rewrite Hs2. exact Hfree.
    + intros msg w H. in_trace H; discriminate H.
  - pose proof
      (terminated_listen_opens_nothing h Hcontract _ _ _ _ _ Hlisten) as Hs2.
    rewrite Hs1 in Hs2.
    split.
    + split; [ intros [] | ]. rewrite Hs2. exact Hfree.
    + intros msg w H. in_trace H; discriminate H.
  - pose proof (listen_opens_port h Hcontract _ _ _ _ Hlisten) as Hs2.
    pose proof (sync_opens_nothing h Hcontract _
      (console_log "Server running on http://localhost:3000") s2) as Hs3.
    rewrite Hlog, Hs2 in Hs3. cbn in Hs3.
    split.
    + split; intros _; [ rewrite Hs3 | ]; now left.
    + intros msg w H. in_trace H; inversion H; subst.
      rewrite Hs3. now left.
Qed.

(** [X2], on the reference host: with port 3000 held by another process
    nothing is logged and port 3000 is not served by this one. *)
Lemma startup_message_is_readiness_signal_witness :
  let r := run node bootstrap
             (fresh ["node"; "dist/main.js"] [] [3000] None) [] in
  ~ In "Server running on http://localhost:3000" (logged (events (trace r)))
  /\ ~ In 3000 (serving node (final_world r)).
Proof.
  intros r.
  assert (Hfree : ~ In 3000 (serving node
            (fresh ["node"; "dist/main.js"] [] [3000] None))).
  { intros []. }
  pose proof (startup_message_is_readiness_signal Node node
                (fresh ["node"; "dist/main.js"] [] [3000] None) []
                node_contract Hfree) as H.
  cbv zeta in H. fold r in H. destruct H as [[_ Hback] _].
  assert (Hnone : ~ In "Server running on http://localhost:3000"
                      (logged (events (trace r)))).
  { intros []. }
  split; [ exact Hnone | ].
  intros Hserved. exact (Hnone (Hback Hserved)).
Defined.
